(** * The review sidebar of a form: frappe.ui.form.Review

    A shallow embedding of [frappe/public/js/frappe/form/sidebar/review.js]
    and the properties of its involvement resolver, its points gate, its
    submission handler and its pill rendering.

    JavaScript objects become records, arrays become lists, the [frm.doc]
    object (used as a map from field names to values) becomes a [gmap], and
    the component, the DOM nodes it owns, the dialogs it opens and the
    promises it waits for are threaded through one explicit [State]. Every
    call into a collaborator (dialog, message box, remote call, timeline,
    jQuery node) is also appended to a [trace], in program order. *)

From stdpp Require Import gmap strings list fin_maps.
From Stdlib Require Import ZArith.

Set Default Proof Using "Type".

(** ** JavaScript values *)

(** The primitive values that reach this file. Numbers are the integers of
    [Int] fields and of the points ledger. *)
Inductive value :=
  | VUndefined
  | VNull
  | VBool (b : bool)
  | VNum (n : Z)
  | VStr (s : string).

#[global] Instance value_eq_dec : EqDecision value.
Proof. solve_decision. Defined.

(** [Boolean(v)]: [undefined], [null], [false], [0] and [''] are falsy. *)
Definition truthy (v : value) : bool :=
  match v with
  | VUndefined | VNull => false
  | VBool b => b
  | VNum n => negb (n =? 0)%Z
  | VStr s => negb (bool_decide (s = ""))
  end.

(** [a && b] returns [a] when [a] is falsy and [b] otherwise. *)
Definition js_and (a b : value) : value :=
  if truthy a then b else a.

(** [a === b] on primitives. *)
Definition strict_eq (a b : value) : bool := bool_decide (a = b).

(** [Array.prototype.includes]. *)
Definition includes {A} `{EqDecision A} (l : list A) (x : A) : bool :=
  bool_decide (x ∈ l).

(** Modelled from the spec: [Array.prototype.uniqBy] is defined elsewhere in
    the repository; the spec says "Deduplicate by identity". The array is
    walked once with a record of the keys seen so far, and an item is kept
    when its key has not been seen. *)
Fixpoint uniqBy_from {A K} `{EqDecision K}
    (key : A → K) (seen : list K) (l : list A) : list A :=
  match l with
  | [] => []
  | x :: l' =>
      if decide (key x ∈ seen) then uniqBy_from key seen l'
      else x :: uniqBy_from key (key x :: seen) l'
  end.

Definition uniqBy {A K} `{EqDecision K} (key : A → K) (l : list A) : list A :=
  uniqBy_from key [] l.

(** [__('…')] is the translation lookup; it is the identity here. *)
Definition __ (s : string) : string := s.

(** ** The form, its metadata and its docinfo *)

Record DocField := {
  fieldtype : string;
  options : value;
  fieldname : string
}.

Record Communication := {
  sender : value;
  delivery_status : value
}.

(** A comment, version or assignment entry; only [owner] is read. *)
Record Entry := { owner : value }.

(** An energy point log, as [update_reviewers] and [setup_detail_popover]
    read it. *)
Record Log := {
  log_type : string;
  log_points : Z;
  log_user : string;
  log_owner : string;
  log_creation : string;
  log_reason : string
}.

Record Docinfo := {
  communications : list Communication;
  comments : list Entry;
  versions : list Entry;
  assignments : list Entry;
  energy_point_logs : list Log
}.

(** [frappe.boot.points] and [this.points]; [review_points] may be absent. *)
Record Points := { review_points : option Z }.

(** [!this.points.review_points] *)
Definition no_review_points (p : Points) : bool :=
  match review_points p with
  | None => true
  | Some n => (n =? 0)%Z
  end.

(** [x > this.points.review_points] for a number [x]: comparing with
    [undefined] is false. *)
Definition exceeds (x : Z) (p : Points) : bool :=
  match review_points p with
  | None => false
  | Some n => (n <? x)%Z
  end.

(** ** DOM nodes and dialogs *)

(** The hover popover of a pill: the chosen subject template with its
    message parts, and the author and reason shown under it. *)
Record Popover := {
  subject : string;
  message_parts : Z * string * string;
  by_owner : string;
  body : string
}.

(** [<li class="review …"><div>…</div></li>] *)
Record Pill := {
  pill_class : list string;
  pill_text : Z;
  pill_popover : option Popover
}.

Inductive ClickHandler :=
  | HandlerFalse
  | HandlerShowReviewDialog.

Record Button := {
  click_handlers : list ClickHandler;
  button_popover : option string
}.

Record Dialog := {
  to_user_options : list value;
  points_description : Points;
  shown : bool;
  primary_disabled : bool
}.

Record Values := {
  to_user : string;
  review_type : string;
  v_points : Z;
  reason : string
}.

(** ** Remote calls and the trace *)

Inductive Args :=
  | ArgsUser (user : string)
  | ArgsReview (doctype name : value) (to_user : string) (points : Z)
      (review_type reason : string).

(** What a pending promise will run once it settles. *)
Inductive Pending :=
  | PendingReview (d : nat)
  | PendingPoints.

Inductive Outcome (A : Type) :=
  | Resolved (data : A)
  | Rejected.
Arguments Resolved {A} data.
Arguments Rejected {A}.

Inductive Event :=
  | EvDisablePrimary (d : nat)
  | EvEnablePrimary (d : nat)
  | EvDialogShow (d : nat)
  | EvDialogHide (d : nat)
  | EvDialogClear (d : nat)
  | EvMsgprint (msg : string)
  | EvXCall (method : string) (args : Args)
  | EvTimelineRefresh (logs : list Log)
  | EvReviewsEmpty
  | EvReviewsAppend (pill : Pill).

Definition is_xcall (e : Event) : bool :=
  match e with EvXCall _ _ => true | _ => false end.

Record State := {
  session_user : string;          (* frappe.session.user *)
  boot_points : Points;           (* frappe.boot.points *)
  meta_fields : list DocField;    (* frm.meta.fields *)
  doc : gmap string value;        (* frm.doc *)
  docinfo : Docinfo;              (* frm.get_docinfo() *)
  this_points : Points;           (* this.points *)
  reviews : list Pill;            (* children of this.reviews *)
  review_button : Button;         (* .add-review-btn *)
  dialogs : list Dialog;          (* every review_dialog created so far *)
  pending : list Pending;         (* remote calls in flight *)
  trace : list Event
}.

(** *** Field updates *)

Definition set_boot_points (p : Points) (st : State) : State :=
  {| session_user := session_user st; boot_points := p;
     meta_fields := meta_fields st; doc := doc st; docinfo := docinfo st;
     this_points := this_points st; reviews := reviews st;
     review_button := review_button st; dialogs := dialogs st;
     pending := pending st; trace := trace st |}.

Definition set_this_points (p : Points) (st : State) : State :=
  {| session_user := session_user st; boot_points := boot_points st;
     meta_fields := meta_fields st; doc := doc st; docinfo := docinfo st;
     this_points := p; reviews := reviews st;
     review_button := review_button st; dialogs := dialogs st;
     pending := pending st; trace := trace st |}.

Definition set_docinfo (di : Docinfo) (st : State) : State :=
  {| session_user := session_user st; boot_points := boot_points st;
     meta_fields := meta_fields st; doc := doc st; docinfo := di;
     this_points := this_points st; reviews := reviews st;
     review_button := review_button st; dialogs := dialogs st;
     pending := pending st; trace := trace st |}.

Definition set_reviews (r : list Pill) (st : State) : State :=
  {| session_user := session_user st; boot_points := boot_points st;
     meta_fields := meta_fields st; doc := doc st; docinfo := docinfo st;
     this_points := this_points st; reviews := r;
     review_button := review_button st; dialogs := dialogs st;
     pending := pending st; trace := trace st |}.

Definition set_review_button (b : Button) (st : State) : State :=
  {| session_user := session_user st; boot_points := boot_points st;
     meta_fields := meta_fields st; doc := doc st; docinfo := docinfo st;
     this_points := this_points st; reviews := reviews st;
     review_button := b; dialogs := dialogs st;
     pending := pending st; trace := trace st |}.

Definition set_dialogs (ds : list Dialog) (st : State) : State :=
  {| session_user := session_user st; boot_points := boot_points st;
     meta_fields := meta_fields st; doc := doc st; docinfo := docinfo st;
     this_points := this_points st; reviews := reviews st;
     review_button := review_button st; dialogs := ds;
     pending := pending st; trace := trace st |}.

Definition set_pending (ps : list Pending) (st : State) : State :=
  {| session_user := session_user st; boot_points := boot_points st;
     meta_fields := meta_fields st; doc := doc st; docinfo := docinfo st;
     this_points := this_points st; reviews := reviews st;
     review_button := review_button st; dialogs := dialogs st;
     pending := ps; trace := trace st |}.

Definition set_trace (t : list Event) (st : State) : State :=
  {| session_user := session_user st; boot_points := boot_points st;
     meta_fields := meta_fields st; doc := doc st; docinfo := docinfo st;
     this_points := this_points st; reviews := reviews st;
     review_button := review_button st; dialogs := dialogs st;
     pending := pending st; trace := t |}.

(** Record one call in the trace. *)
Definition emit (e : Event) (st : State) : State :=
  set_trace (trace st ++ [e]) st.

(** ** Collaborators *)

(** Modelled from the spec: [frappe.ui.Dialog] is defined elsewhere in the
    repository. The spec's "triggering control" is the dialog's primary
    button: [disable_primary_action] disables it and
    [enable_primary_action] enables it again; [show] and [hide] open and
    close the dialog, [clear] empties its fields. *)
Definition set_primary_disabled (b : bool) (dlg : Dialog) : Dialog :=
  {| to_user_options := to_user_options dlg;
     points_description := points_description dlg;
     shown := shown dlg; primary_disabled := b |}.

Definition set_shown (b : bool) (dlg : Dialog) : Dialog :=
  {| to_user_options := to_user_options dlg;
     points_description := points_description dlg;
     shown := b; primary_disabled := primary_disabled dlg |}.

Definition disable_primary_action (d : nat) (st : State) : State :=
  emit (EvDisablePrimary d)
    (set_dialogs (alter (set_primary_disabled true) d (dialogs st)) st).

Definition enable_primary_action (d : nat) (st : State) : State :=
  emit (EvEnablePrimary d)
    (set_dialogs (alter (set_primary_disabled false) d (dialogs st)) st).

Definition dialog_show (d : nat) (st : State) : State :=
  emit (EvDialogShow d)
    (set_dialogs (alter (set_shown true) d (dialogs st)) st).

Definition dialog_hide (d : nat) (st : State) : State :=
  emit (EvDialogHide d)
    (set_dialogs (alter (set_shown false) d (dialogs st)) st).

Definition dialog_clear (d : nat) (st : State) : State :=
  emit (EvDialogClear d) st.

(** Modelled from the spec: [frappe.msgprint] is defined elsewhere in the
    repository; the spec has the failure "surfaced as an inline user
    message". The message is shown and nothing else changes. *)
Definition msgprint (msg : string) (st : State) : State :=
  emit (EvMsgprint msg) st.

(** Modelled from the spec: [frappe.xcall] is defined elsewhere in the
    repository; the spec treats it as an opaque remote procedure call that
    is suspended at the network boundary and resumed on response. The call
    is issued now and its continuation waits in [pending]. *)
Definition xcall (method : string) (args : Args) (k : Pending) (st : State)
    : State :=
  emit (EvXCall method args) (set_pending (pending st ++ [k]) st).

(** Modelled from the spec: the timeline of the form is defined elsewhere
    in the repository; the spec has [frm.timeline.refresh()] "trigger a
    re-render of any dependent timeline/comment-stream view". The event keeps
    the energy point logs the timeline finds in the docinfo at that moment. *)
Definition timeline_refresh (st : State) : State :=
  emit (EvTimelineRefresh (energy_point_logs (docinfo st))) st.

(** [docinfo.energy_point_logs.unshift(review)] *)
Definition unshift_energy_point_log (review : Log) (st : State) : State :=
  let di := docinfo st in
  set_docinfo
    {| communications := communications di; comments := comments di;
       versions := versions di; assignments := assignments di;
       energy_point_logs := review :: energy_point_logs di |} st.

(** [this.reviews.empty()] and [this.reviews.append(el)] *)
Definition reviews_empty (st : State) : State :=
  emit EvReviewsEmpty (set_reviews [] st).

Definition reviews_append (el : Pill) (st : State) : State :=
  emit (EvReviewsAppend el) (set_reviews (reviews st ++ [el]) st).

(** [frm.doc[field]] *)
Definition doc_get (st : State) (field : string) : value :=
  default VUndefined (doc st !! field).

(** ** The Review component *)

Definition get_energy_points_method : string :=
  "frappe.social.doctype.energy_point_log.energy_point_log.get_energy_points".

Definition review_method : string :=
  "frappe.social.doctype.energy_point_log.energy_point_log.review".

(** [update_points()]: issue the call; the [then] handler is
    [update_points_then]. *)
Definition update_points (st : State) : State :=
  xcall get_energy_points_method (ArgsUser (session_user st)) PendingPoints st.

Definition update_points_then (data : Points) (st : State) : State :=
  let st := set_boot_points data st in
  set_this_points data st.

(** [add_review_button()] *)
Definition add_review_button (st : State) : State :=
  let review_button := review_button st in
  if no_review_points (this_points st) then
    set_review_button
      {| click_handlers := click_handlers review_button ++ [HandlerFalse];
         button_popover := Some (__ "You do not have enough review points") |}
      st
  else
    set_review_button
      {| click_handlers :=
           click_handlers review_button ++ [HandlerShowReviewDialog];
         button_popover := button_popover review_button |}
      st.

(** [d.fieldtype === 'Link' && d.options === 'User'] *)
Definition is_user_link (d : DocField) : bool :=
  bool_decide (fieldtype d = "Link") && strict_eq (options d) (VStr "User").

(** [get_involved_users()] *)
Definition get_involved_users (st : State) : list value :=
  let user_fields := fieldname <$> filter (λ d, is_user_link d) (meta_fields st) in
  let user_fields := user_fields ++ ["owner"] in
  let involved_users := (λ field, doc_get st field) <$> user_fields in
  let docinfo := docinfo st in
  let involved_users :=
    involved_users
      ++ ((λ d, js_and (sender d)
                  (VBool (strict_eq (delivery_status d) (VStr "sent"))))
            <$> communications docinfo)
      ++ (owner <$> comments docinfo)
      ++ (owner <$> versions docinfo)
      ++ (owner <$> assignments docinfo) in
  filter (λ user, truthy user)
    (filter
       (λ user,
          negb (includes [VStr "Administrator"; VStr (session_user st)] user))
       (uniqBy (λ u, u) involved_users)).

(** [setup_detail_popover(el, data)]: choose the subject template and
    attach the popover to [el]. The display name and the relative time of
    [message_parts] are produced by collaborators from [data.user] and
    [data.creation], which are kept as they are. *)
Definition setup_detail_popover (el : Pill) (data : Log) : Pill :=
  let message_parts :=
    (Z.abs (log_points data), log_user data, log_creation data) in
  let subject :=
    if bool_decide (log_type data = "Appreciation") then
      if (log_points data =? 1)%Z
      then __ "{0} appreciation point for {1}"
      else __ "{0} appreciation points for {1}"
    else
      if (log_points data =? -1)%Z
      then __ "{0} criticism point for {1}"
      else __ "{0} criticism points for {1}" in
  {| pill_class := pill_class el; pill_text := pill_text el;
     pill_popover :=
       Some {| subject := subject; message_parts := message_parts;
               by_owner := log_owner data; body := log_reason data |} |}.

(** The element built by the template literal of [update_reviewers]. *)
Definition review_pill (log : Log) : Pill :=
  {| pill_class :=
       ["review"; if (log_points log <? 0)%Z then "criticism" else "appreciation"];
     pill_text := Z.abs (log_points log);
     pill_popover := None |}.

(** [['Appreciation', 'Criticism'].includes(log.type)] *)
Definition is_review_log (log : Log) : bool :=
  includes ["Appreciation"; "Criticism"] (log_type log).

(** [update_reviewers()]. The popover is attached to the very element that
    was appended, so the appended child carries it. *)
Definition update_reviewers (st : State) : State :=
  let review_logs :=
    filter (λ log, is_review_log log) (energy_point_logs (docinfo st)) in
  let st := reviews_empty st in
  foldl
    (λ st log, reviews_append (setup_detail_popover (review_pill log) log) st)
    st review_logs.

(** The [then] handler of [primary_action], for dialog [d]. *)
Definition primary_action_then (d : nat) (review : Log) (st : State) : State :=
  let st := dialog_hide d st in
  let st := dialog_clear d st in
  let st := unshift_energy_point_log review st in
  let st := timeline_refresh st in
  let st := update_reviewers st in
  update_points st.

(** The [finally] handler of [primary_action]. *)
Definition primary_action_finally (d : nat) (st : State) : State :=
  enable_primary_action d st.

(** [primary_action(values)] of dialog [d], up to the point where it returns:
    either after the message box, or after the remote call is issued. *)
Definition primary_action (d : nat) (values : Values) (st : State) : State :=
  let st := disable_primary_action d st in
  if exceeds (v_points values) (this_points st) then
    msgprint (__ "You do not have enough points") st
  else
    xcall review_method
      (ArgsReview (doc_get st "doctype") (doc_get st "name")
         (to_user values) (v_points values) (review_type values)
         (reason values))
      (PendingReview d) st.

(** [show_review_dialog()]: a new dialog whose recipient options are the
    involved users of that moment, then [review_dialog.show()]. *)
Definition show_review_dialog (st : State) : State :=
  let user_options := get_involved_users st in
  let d := length (dialogs st) in
  let st :=
    set_dialogs
      (dialogs st ++
         [{| to_user_options := user_options;
             points_description := this_points st;
             shown := false; primary_disabled := false |}]) st in
  dialog_show d st.

(** The constructor, on the page as it is before the component exists. *)
Definition constructor (st : State) : State :=
  let st := set_this_points (boot_points st) st in
  let st := add_review_button st in
  update_reviewers st.

(** ** The event loop *)

Definition run_handler (h : ClickHandler) (st : State) : State :=
  match h with
  | HandlerFalse => st
  | HandlerShowReviewDialog => show_review_dialog st
  end.

(** A click on [.add-review-btn] runs the handlers bound to it, in the
    order they were bound. *)
Definition click_review_button (st : State) : State :=
  foldl (λ st h, run_handler h st) st (click_handlers (review_button st)).

(** The [k]-th pending call settles, as a [review] call. *)
Definition settle_review (k : nat) (o : Outcome Log) (st : State) : State :=
  match pending st !! k with
  | Some (PendingReview d) =>
      let st := set_pending (delete k (pending st)) st in
      let st :=
        match o with
        | Resolved review => primary_action_then d review st
        | Rejected => st
        end in
      primary_action_finally d st
  | _ => st
  end.

(** The [k]-th pending call settles, as a [get_energy_points] call. *)
Definition settle_points (k : nat) (o : Outcome Points) (st : State) : State :=
  match pending st !! k with
  | Some PendingPoints =>
      let st := set_pending (delete k (pending st)) st in
      match o with
      | Resolved data => update_points_then data st
      | Rejected => st
      end
  | _ => st
  end.

(** What can happen to the component once it is constructed. A dialog that
    does not exist cannot submit. *)
Inductive Input :=
  | InClick
  | InSubmit (d : nat) (values : Values)
  | InSettleReview (k : nat) (o : Outcome Log)
  | InSettlePoints (k : nat) (o : Outcome Points)
  | InUpdatePoints
  | InUpdateReviewers.

Definition step (st : State) (i : Input) : State :=
  match i with
  | InClick => click_review_button st
  | InSubmit d values =>
      if decide (d < length (dialogs st)) then primary_action d values st
      else st
  | InSettleReview k o => settle_review k o st
  | InSettlePoints k o => settle_points k o st
  | InUpdatePoints => update_points st
  | InUpdateReviewers => update_reviewers st
  end.

Definition run (st : State) (inputs : list Input) : State :=
  foldl step st inputs.

(** ** Closed forms and invariants used in the statements *)

(** The array handed to [uniqBy] by [get_involved_users]. *)
Definition involved_candidates (st : State) : list value :=
  ((λ field, doc_get st field)
     <$> ((fieldname <$> filter (λ d, is_user_link d) (meta_fields st))
            ++ ["owner"]))
  ++ ((λ d, js_and (sender d)
              (VBool (strict_eq (delivery_status d) (VStr "sent"))))
        <$> communications (docinfo st))
  ++ (owner <$> comments (docinfo st))
  ++ (owner <$> versions (docinfo st))
  ++ (owner <$> assignments (docinfo st)).

(** The pills of a history: one per log whose type is a review type, in the
    order of the history. *)
Definition pills_of (logs : list Log) : list Pill :=
  (λ log, setup_detail_popover (review_pill log) log)
    <$> filter (λ log, is_review_log log) logs.

(** The wiring [add_review_button] gives a fresh button when there are no
    review points. *)
Definition gated_button : Button :=
  {| click_handlers := [HandlerFalse];
     button_popover := Some "You do not have enough review points" |}.

(** Every pending review call belongs to a dialog that exists. *)
Definition pending_dialogs_exist (st : State) : Prop :=
  Forall
    (λ p, match p with
          | PendingReview d => d < length (dialogs st)
          | PendingPoints => True
          end)
    (pending st).

(** What holds of a component whose button is gated and that has never
    opened a dialog. *)
Record gated (st : State) : Prop := {
  gated_wiring : review_button st = gated_button;
  gated_dialogs : dialogs st = [];
  gated_pending : Forall (λ p, p = PendingPoints) (pending st);
  gated_trace : ∀ args, EvXCall review_method args ∉ trace st
}.

(** The wiring [add_review_button] gives a fresh button when there are
    review points. *)
Definition open_button : Button :=
  {| click_handlers := [HandlerShowReviewDialog]; button_popover := None |}.

(** The dialog [show_review_dialog] creates in [st]. *)
Definition new_dialog (st : State) : Dialog :=
  {| to_user_options := get_involved_users st;
     points_description := this_points st;
     shown := true; primary_disabled := false |}.

(** [review] calls in a trace, and review calls in flight. *)
Definition is_review_call (e : Event) : bool :=
  match e with
  | EvXCall method _ => bool_decide (method = review_method)
  | _ => false
  end.

Definition is_pending_review (p : Pending) : bool :=
  match p with PendingReview _ => true | PendingPoints => false end.

Definition review_calls (t : list Event) : nat :=
  length (filter (λ e, is_review_call e) t).

Definition pending_reviews (ps : list Pending) : nat :=
  length (filter (λ p, is_pending_review p) ps).

Definition is_enable (e : Event) : bool :=
  match e with EvEnablePrimary _ => true | _ => false end.

(** Calls of [enable_primary_action] in a trace. *)
Definition enable_calls (t : list Event) : nat :=
  length (filter (λ e, is_enable e) t).

Definition is_disable (e : Event) : bool :=
  match e with EvDisablePrimary _ => true | _ => false end.

Definition is_msgprint (e : Event) : bool :=
  match e with EvMsgprint _ => true | _ => false end.

(** Calls of [disable_primary_action] and of [frappe.msgprint] in a trace. *)
Definition disable_calls (t : list Event) : nat :=
  length (filter (λ e, is_disable e) t).

Definition msgprints (t : list Event) : nat :=
  length (filter (λ e, is_msgprint e) t).

(** A log whose sign agrees with its type. *)
Definition sign_consistent (data : Log) : Prop :=
  if bool_decide (log_type data = "Appreciation")
  then (0 < log_points data)%Z
  else (log_points data < 0)%Z.

(** The singular subjects of [setup_detail_popover]. *)
Definition singular_subjects : list string :=
  ["{0} appreciation point for {1}"; "{0} criticism point for {1}"].

(** ** Concrete pages *)

(** The page as it is loaded, before the component is constructed: no pill,
    no handler on the button, no dialog, no call in flight. *)
Definition page (user : string) (pts : Points) (fields : list DocField)
    (d : gmap string value) (di : Docinfo) : State :=
  {| session_user := user; boot_points := pts; meta_fields := fields;
     doc := d; docinfo := di;
     this_points := {| review_points := None |};
     reviews := [];
     review_button := {| click_handlers := []; button_popover := None |};
     dialogs := []; pending := []; trace := [] |}.

Definition task_doc : gmap string value :=
  {[ "doctype" := VStr "Task"; "name" := VStr "TASK-0001";
     "owner" := VStr "alice@example.com" ]}.

(** A task owned by alice, with one sent communication from bob, viewed by
    carol who has 5 review points. *)
Definition task_with_sent_mail : State :=
  page "carol@example.com" {| review_points := Some 5%Z |} [] task_doc
    {| communications :=
         [{| sender := VStr "bob@example.com"; delivery_status := VStr "sent" |}];
       comments := []; versions := []; assignments := [];
       energy_point_logs := [] |}.

(** The same task, viewed by carol when she has no review points left. *)
Definition task_without_points : State :=
  page "carol@example.com" {| review_points := Some 0%Z |} [] task_doc
    (docinfo task_with_sent_mail).

(** A task without communications, comments, versions or assignments. *)
Definition task_without_feeds : State :=
  page "carol@example.com" {| review_points := Some 5%Z |}
    [{| fieldtype := "Data"; options := VUndefined; fieldname := "subject" |}]
    task_doc
    {| communications := []; comments := []; versions := [];
       assignments := []; energy_point_logs := [] |}.

(** carol has clicked the button: dialog [0] is open. *)
Definition task_dialog_open : State :=
  click_review_button (constructor task_with_sent_mail).

Definition six_points_for_alice : Values :=
  {| to_user := "alice@example.com"; review_type := "Appreciation";
     v_points := 6; reason := "Thorough triage" |}.

Definition minus_three_for_mallory : Values :=
  {| to_user := "mallory@example.com"; review_type := "Criticism";
     v_points := -3; reason := "None of your business" |}.

Definition two_points_for_alice : Values :=
  {| to_user := "alice@example.com"; review_type := "Appreciation";
     v_points := 2; reason := "Thorough triage" |}.

Definition review_of_alice : Log :=
  {| log_type := "Appreciation"; log_points := 2;
     log_user := "alice@example.com"; log_owner := "carol@example.com";
     log_creation := "2019-06-01 10:00:00"; log_reason := "Thorough triage" |}.

(** * Properties *)

(** ** The involvement resolver *)

Section uniqBy.
Context {A K : Type} `{EqDecision K} (key : A → K).

Lemma uniqBy_from_elem_of seen l x :
  x ∈ uniqBy_from key seen l → x ∈ l ∧ key x ∉ seen.
Proof.
  revert seen. induction l as [|y l IH]; intros seen; simpl.
  - by intros ?%elem_of_nil.
  - destruct (decide (key y ∈ seen)) as [Hin|Hout].
    + intros [? ?]%IH. split; [by right|done].
    + intros [->|[? Hs]%IH]%elem_of_cons.
      * split; [by left|done].
      * split; [by right|]. intros ?. apply Hs. by right.
Qed.

Lemma uniqBy_from_keeps seen l x :
  x ∈ l → key x ∉ seen → ∃ y, y ∈ uniqBy_from key seen l ∧ key y = key x.
Proof.
  revert seen. induction l as [|y l IH]; intros seen; simpl.
  - by intros ?%elem_of_nil.
  - intros [->|Hx]%elem_of_cons Hseen.
    + rewrite decide_False by done. exists y. split; [by left|done].
    + destruct (decide (key y ∈ seen)) as [Hin|Hout]; [by apply IH|].
      destruct (decide (key x = key y)) as [Heq|Hne].
      * exists y. split; [by left|done].
      * destruct (IH (key y :: seen) Hx) as (z & Hz & Hk).
        { by intros [?|?]%elem_of_cons. }
        exists z. split; [by right|done].
Qed.

Lemma uniqBy_from_NoDup seen l : NoDup (key <$> uniqBy_from key seen l).
Proof.
  revert seen. induction l as [|y l IH]; intros seen; simpl.
  - constructor.
  - destruct (decide (key y ∈ seen)); [apply IH|].
    rewrite fmap_cons. constructor; [|apply IH].
    intros (z & Hk & Hz)%list_elem_of_fmap.
    apply uniqBy_from_elem_of in Hz as [_ Hz]. apply Hz. rewrite <- Hk. by left.
Qed.
End uniqBy.

Lemma uniqBy_id_NoDup {A} `{EqDecision A} (l : list A) :
  NoDup (uniqBy (λ u, u) l).
Proof.
  pose proof (uniqBy_from_NoDup (λ u : A, u) [] l) as H.
  by rewrite list_fmap_id in H.
Qed.

Lemma uniqBy_id_elem_of {A} `{EqDecision A} (l : list A) x :
  x ∈ uniqBy (λ u, u) l ↔ x ∈ l.
Proof.
  split.
  - by intros [? _]%uniqBy_from_elem_of.
  - intros Hx. destruct (uniqBy_from_keeps (λ u : A, u) [] l x Hx) as (y & Hy & <-).
    + apply not_elem_of_nil.
    + done.
Qed.

Lemma get_involved_users_unfold st :
  get_involved_users st =
    filter (λ user, truthy user)
      (filter
         (λ user,
            negb (includes [VStr "Administrator"; VStr (session_user st)] user))
         (uniqBy (λ u, u) (involved_candidates st))).
Proof. reflexivity. Qed.

Lemma elem_of_get_involved_users st u :
  u ∈ get_involved_users st ↔
    truthy u = true ∧ u ≠ VStr "Administrator" ∧ u ≠ VStr (session_user st)
    ∧ u ∈ involved_candidates st.
Proof.
  rewrite get_involved_users_unfold, !list_elem_of_filter, uniqBy_id_elem_of.
  unfold includes. rewrite Is_true_true, negb_True, bool_decide_spec.
  rewrite !elem_of_cons, elem_of_nil. intuition.
Qed.

(** C2: whatever the document state, the list returned by
    [get_involved_users] holds neither the session user nor 'Administrator',
    holds no identifier twice, and holds no falsy entry. *)
Theorem get_involved_users_eligible (st : State) :
  (VStr (session_user st) ∉ get_involved_users st)
  ∧ (VStr "Administrator" ∉ get_involved_users st)
  ∧ NoDup (get_involved_users st)
  ∧ ∀ u, u ∈ get_involved_users st → truthy u = true.
Proof.
  repeat split.
  - intros (_ & _ & Hne & _)%elem_of_get_involved_users. by apply Hne.
  - intros (_ & Hne & _)%elem_of_get_involved_users. by apply Hne.
  - rewrite get_involved_users_unfold.
    do 2 apply NoDup_filter. apply uniqBy_id_NoDup.
  - by intros u (Ht & _)%elem_of_get_involved_users.
Qed.

(** A sent communication with a sender contributes [true], not the sender. *)
Lemma sent_communication_yields_true st d :
  d ∈ communications (docinfo st) →
  truthy (sender d) = true →
  delivery_status d = VStr "sent" →
  VBool true ∈ get_involved_users st.
Proof.
  intros Hd Hs Hsent. apply elem_of_get_involved_users.
  repeat split; try done.
  unfold involved_candidates. rewrite !elem_of_app. right; left.
  apply list_elem_of_fmap. exists d. split; [|done].
  unfold js_and. rewrite Hs, Hsent. done.
Qed.

(** C3: on a task with one communication whose delivery status is 'sent' and
    whose sender is bob, [get_involved_users] returns the owner and the
    boolean [true]; bob, who is neither falsy, nor 'Administrator', nor the
    session user, is not in the list. *)
Theorem get_involved_users_loses_sent_sender :
  sender <$> communications (docinfo task_with_sent_mail)
    = [VStr "bob@example.com"]
  ∧ get_involved_users task_with_sent_mail
    = [VStr "alice@example.com"; VBool true]
  ∧ VStr "bob@example.com" ∉ get_involved_users task_with_sent_mail.
Proof.
  assert (get_involved_users task_with_sent_mail
          = [VStr "alice@example.com"; VBool true]) as Hres
    by (vm_compute; reflexivity).
  split; [reflexivity|]. split; [exact Hres|].
  rewrite Hres, !elem_of_cons, elem_of_nil. intros [?|[?|[]]]; discriminate.
Qed.

(** ** Submission *)

Lemma primary_action_over_budget d values st :
  exceeds (v_points values) (this_points st) = true →
  primary_action d values st
  = msgprint (__ "You do not have enough points") (disable_primary_action d st).
Proof. unfold primary_action. simpl. by intros ->. Qed.

Lemma primary_action_within_budget d values st :
  exceeds (v_points values) (this_points st) = false →
  primary_action d values st
  = xcall review_method
      (ArgsReview (doc_get st "doctype") (doc_get st "name")
         (to_user values) (v_points values) (review_type values)
         (reason values))
      (PendingReview d) (disable_primary_action d st).
Proof. unfold primary_action. simpl. by intros ->. Qed.

Lemma exceeds_true x p balance :
  review_points p = Some balance → (balance < x)%Z → exceeds x p = true.
Proof. unfold exceeds. intros ->. apply Z.ltb_lt. Qed.

Lemma exceeds_false x p :
  (∀ balance, review_points p = Some balance → (x ≤ balance)%Z) →
  exceeds x p = false.
Proof.
  unfold exceeds. destruct (review_points p) as [n|]; [|done].
  intros H. apply Z.ltb_ge. by apply H.
Qed.

(** C1: when the points of the request exceed the cached balance,
    [primary_action] shows the 'You do not have enough points' message and
    returns: nothing is sent to the remote ledger (no call is recorded, none
    is pending), no log is added to the document's energy point logs, and
    both cached balances, the rendered pills and the document are as they
    were. *)
Theorem primary_action_insufficient_points
    (d : nat) (values : Values) (st : State) (balance : Z) :
  review_points (this_points st) = Some balance →
  (balance < v_points values)%Z →
  let st' := primary_action d values st in
  trace st'
  = trace st ++ [EvDisablePrimary d; EvMsgprint "You do not have enough points"]
  ∧ filter (λ e, is_xcall e) (trace st') = filter (λ e, is_xcall e) (trace st)
  ∧ pending st' = pending st
  ∧ docinfo st' = docinfo st
  ∧ this_points st' = this_points st
  ∧ boot_points st' = boot_points st
  ∧ reviews st' = reviews st
  ∧ doc st' = doc st.
Proof.
  intros Hb Hlt st'. subst st'.
  rewrite primary_action_over_budget by eauto using exceeds_true.
  simpl. rewrite <- app_assoc. simpl. repeat split.
  rewrite filter_app. simpl. by rewrite app_nil_r.
Qed.

Lemma primary_action_insufficient_points_witness :
  let st' := primary_action 0 six_points_for_alice task_dialog_open in
  trace st'
  = trace task_dialog_open
      ++ [EvDisablePrimary 0; EvMsgprint "You do not have enough points"]
  ∧ filter (λ e, is_xcall e) (trace st')
    = filter (λ e, is_xcall e) (trace task_dialog_open)
  ∧ pending st' = pending task_dialog_open
  ∧ docinfo st' = docinfo task_dialog_open
  ∧ this_points st' = this_points task_dialog_open
  ∧ boot_points st' = boot_points task_dialog_open
  ∧ reviews st' = reviews task_dialog_open
  ∧ doc st' = doc task_dialog_open.
Proof.
  apply (primary_action_insufficient_points
           0 six_points_for_alice task_dialog_open 5).
  - reflexivity.
  - simpl. lia.
Defined.

(** C4, as the spec states it, fails: mallory is not among the involved users
    of the task (nor among the options of the open dialog) and the points are
    negative, yet the request is sent to the remote ledger. *)
Lemma primary_action_unvalidated_request :
  (VStr (to_user minus_three_for_mallory) ∉ get_involved_users task_dialog_open)
  ∧ (∀ dlg, dlg ∈ dialogs task_dialog_open →
       VStr (to_user minus_three_for_mallory) ∉ to_user_options dlg)
  ∧ (v_points minus_three_for_mallory ≤ 0)%Z
  ∧ trace (primary_action 0 minus_three_for_mallory task_dialog_open)
    = trace task_dialog_open
        ++ [EvDisablePrimary 0;
            EvXCall review_method
              (ArgsReview (VStr "Task") (VStr "TASK-0001")
                 "mallory@example.com" (-3) "Criticism"
                 "None of your business")]
  ∧ pending (primary_action 0 minus_three_for_mallory task_dialog_open)
    = [PendingReview 0].
Proof.
  assert (get_involved_users task_dialog_open
          = [VStr "alice@example.com"; VBool true]) as Hres
    by (vm_compute; reflexivity).
  assert (dialogs task_dialog_open
          = [{| to_user_options := [VStr "alice@example.com"; VBool true];
                points_description := {| review_points := Some 5%Z |};
                shown := true; primary_disabled := false |}]) as Hdlg
    by (vm_compute; reflexivity).
  split; [|split; [|split; [|split]]].
  - rewrite Hres, !elem_of_cons, elem_of_nil. intros [?|[?|[]]]; discriminate.
  - rewrite Hdlg. intros dlg ->%list_elem_of_singleton. simpl.
    rewrite !elem_of_cons, elem_of_nil. intros [?|[?|[]]]; discriminate.
  - simpl. lia.
  - vm_compute. reflexivity.
  - vm_compute. reflexivity.
Qed.

(** C4, amended: the budget is the only thing [primary_action] checks before
    the remote call. Whenever the points do not exceed the cached balance,
    the request is sent to the remote ledger as it is, whoever the recipient
    is and whatever the sign of the points. *)
Theorem primary_action_checks_budget_only
    (d : nat) (values : Values) (st : State) :
  (∀ balance, review_points (this_points st) = Some balance →
     (v_points values ≤ balance)%Z) →
  trace (primary_action d values st)
  = trace st
      ++ [EvDisablePrimary d;
          EvXCall review_method
            (ArgsReview (doc_get st "doctype") (doc_get st "name")
               (to_user values) (v_points values) (review_type values)
               (reason values))]
  ∧ pending (primary_action d values st) = pending st ++ [PendingReview d].
Proof.
  intros Hle. rewrite primary_action_within_budget by by apply exceeds_false.
  simpl. by rewrite <- app_assoc.
Qed.

Lemma primary_action_checks_budget_only_witness :
  trace (primary_action 0 minus_three_for_mallory task_dialog_open)
  = trace task_dialog_open
      ++ [EvDisablePrimary 0;
          EvXCall review_method
            (ArgsReview (doc_get task_dialog_open "doctype")
               (doc_get task_dialog_open "name")
               (to_user minus_three_for_mallory)
               (v_points minus_three_for_mallory)
               (review_type minus_three_for_mallory)
               (reason minus_three_for_mallory))]
  ∧ pending (primary_action 0 minus_three_for_mallory task_dialog_open)
    = pending task_dialog_open ++ [PendingReview 0].
Proof.
  apply (primary_action_checks_budget_only
           0 minus_three_for_mallory task_dialog_open).
  intros balance Hb. vm_compute in Hb. injection Hb as <-. simpl. lia.
Defined.

(** C7: carol has 5 review points and submits 6 in dialog [0]. The primary
    button is disabled, the message is shown, and [primary_action] returns:
    [enable_primary_action] is not called, no call is pending whose
    settlement would call it, and the button stays disabled. *)
Theorem over_budget_submit_stays_disabled :
  let st' := primary_action 0 six_points_for_alice task_dialog_open in
  primary_disabled <$> dialogs task_dialog_open !! 0 = Some false
  ∧ primary_disabled <$> dialogs st' !! 0 = Some true
  ∧ trace st'
    = trace task_dialog_open
        ++ [EvDisablePrimary 0; EvMsgprint "You do not have enough points"]
  ∧ pending st' = []
  ∧ ∀ k o, settle_review k o st' = st'.
Proof.
  assert (pending (primary_action 0 six_points_for_alice task_dialog_open) = [])
    as Hp by (vm_compute; reflexivity).
  intros st'. subst st'.
  split; [vm_compute; reflexivity|]. split; [vm_compute; reflexivity|].
  split; [vm_compute; reflexivity|]. split; [exact Hp|].
  intros k o. unfold settle_review. by rewrite Hp.
Qed.

Lemma primary_action_over_budget_disabled d values st :
  d < length (dialogs st) →
  exceeds (v_points values) (this_points st) = true →
  primary_disabled <$> dialogs (primary_action d values st) !! d = Some true.
Proof.
  intros [dlg Hd]%lookup_lt_is_Some Hex.
  rewrite primary_action_over_budget by done. simpl.
  by rewrite list_lookup_alter_eq, Hd.
Qed.

(** ** Rendering the pills *)

Lemma set_trace_reviews_id st :
  set_trace (trace st ++ []) (set_reviews (reviews st ++ []) st) = st.
Proof. destruct st. unfold set_trace, set_reviews. simpl. by rewrite !app_nil_r. Qed.

Lemma foldl_reviews_append (f : Log → Pill) (ls : list Log) (st : State) :
  foldl (λ st log, reviews_append (f log) st) st ls
  = set_trace (trace st ++ (EvReviewsAppend <$> (f <$> ls)))
      (set_reviews (reviews st ++ (f <$> ls)) st).
Proof.
  revert st. induction ls as [|log ls IH]; intros st.
  - simpl. by rewrite set_trace_reviews_id.
  - simpl. rewrite IH. unfold reviews_append, emit, set_trace, set_reviews.
    simpl. by rewrite <- !app_assoc.
Qed.

Lemma update_reviewers_eq st :
  update_reviewers st
  = set_trace
      (trace st
         ++ EvReviewsEmpty
            :: (EvReviewsAppend <$> pills_of (energy_point_logs (docinfo st))))
      (set_reviews (pills_of (energy_point_logs (docinfo st))) st).
Proof.
  unfold update_reviewers. rewrite foldl_reviews_append.
  unfold reviews_empty, emit, set_trace, set_reviews, pills_of. simpl.
  by rewrite <- app_assoc.
Qed.

Lemma review_pill_class log :
  (pill_class (review_pill log) = ["review"; "criticism"]
     ↔ (log_points log < 0)%Z)
  ∧ (pill_class (review_pill log) = ["review"; "appreciation"]
     ↔ (0 ≤ log_points log)%Z).
Proof.
  unfold review_pill. simpl.
  destruct (Z.ltb_spec (log_points log) 0); split; split;
    first [done | lia | discriminate].
Qed.

(** C8: every pill that [update_reviewers] renders shows the absolute value
    of its log's points, and its class is 'criticism' exactly when the points
    are negative and 'appreciation' otherwise; a log with 0 points gets
    'appreciation'. *)
Theorem update_reviewers_pill_class (st : State) :
  Forall2
    (λ log pill,
       pill_text pill = Z.abs (log_points log)
       ∧ (pill_class pill = ["review"; "criticism"] ↔ (log_points log < 0)%Z)
       ∧ (pill_class pill = ["review"; "appreciation"]
          ↔ (0 ≤ log_points log)%Z)
       ∧ (log_points log = 0%Z → pill_class pill = ["review"; "appreciation"]))
    (filter (λ log, is_review_log log) (energy_point_logs (docinfo st)))
    (reviews (update_reviewers st)).
Proof.
  rewrite update_reviewers_eq. simpl. unfold pills_of.
  apply Forall2_fmap_r, Forall_Forall2_diag, Forall_forall.
  intros log _. simpl.
  destruct (review_pill_class log) as [Hc Ha].
  repeat split; try apply Hc; try apply Ha. intros H0. apply Ha. lia.
Qed.

(** C9: [update_reviewers] leaves exactly the pills of the current history
    filtered to the review types, whatever was displayed before; calling it
    again, any number of times, displays the same pills, one per filtered
    log. *)
Theorem update_reviewers_idempotent (st : State) :
  reviews (update_reviewers st) = pills_of (energy_point_logs (docinfo st))
  ∧ docinfo (update_reviewers st) = docinfo st
  ∧ reviews (update_reviewers (update_reviewers st))
    = reviews (update_reviewers st)
  ∧ ∀ n, reviews (Nat.iter (S n) update_reviewers st)
         = pills_of (energy_point_logs (docinfo st))
         ∧ length (reviews (Nat.iter (S n) update_reviewers st))
           = length (filter (λ log, is_review_log log)
                       (energy_point_logs (docinfo st))).
Proof.
  assert (∀ n, docinfo (Nat.iter n update_reviewers st) = docinfo st) as Hdoc.
  { induction n as [|n IH]; [done|]. simpl. by rewrite update_reviewers_eq. }
  split; [by rewrite update_reviewers_eq|].
  split; [by rewrite update_reviewers_eq|].
  split; [by rewrite !update_reviewers_eq|].
  intros n. simpl. rewrite update_reviewers_eq. simpl. rewrite Hdoc.
  split; [done|]. unfold pills_of. by rewrite length_fmap.
Qed.

(** ** Settlement of the remote call *)

Lemma primary_action_reaches_network d values st :
  exceeds (v_points values) (this_points st) = false →
  pending (primary_action d values st) !! length (pending st)
  = Some (PendingReview d).
Proof.
  intros Hex. rewrite primary_action_within_budget by done. simpl.
  by rewrite list_lookup_middle.
Qed.

Lemma settle_review_on_resolved k d review st :
  pending st !! k = Some (PendingReview d) →
  settle_review k (Resolved review) st
  = primary_action_finally d
      (primary_action_then d review (set_pending (delete k (pending st)) st)).
Proof. unfold settle_review. by intros ->. Qed.

Lemma settle_review_on_rejected k d st :
  pending st !! k = Some (PendingReview d) →
  settle_review k Rejected st
  = primary_action_finally d (set_pending (delete k (pending st)) st).
Proof. unfold settle_review. by intros ->. Qed.

(** C5: when the review call of dialog [d] resolves with [review], the log is
    put in front of the document's energy point logs, which are otherwise
    kept and so grow by exactly one; and the calls made are, in order: hide
    and clear the dialog, refresh the timeline (which already finds the new
    log), empty the pill list and append the pills of the new history
    filtered to 'Appreciation' and 'Criticism', ask the ledger for the
    balance, and finally enable the primary button. *)
Theorem settle_review_resolved
    (k d : nat) (review : Log) (st : State) :
  pending st !! k = Some (PendingReview d) →
  let logs := energy_point_logs (docinfo st) in
  let st' := settle_review k (Resolved review) st in
  energy_point_logs (docinfo st') = review :: logs
  ∧ length (energy_point_logs (docinfo st')) = S (length logs)
  ∧ trace st'
    = trace st
        ++ [EvDialogHide d; EvDialogClear d;
            EvTimelineRefresh (review :: logs);
            EvReviewsEmpty]
        ++ (EvReviewsAppend <$> pills_of (review :: logs))
        ++ [EvXCall get_energy_points_method (ArgsUser (session_user st));
            EvEnablePrimary d]
  ∧ reviews st' = pills_of (review :: logs)
  ∧ pending st' = delete k (pending st) ++ [PendingPoints].
Proof.
  intros Hk logs st'. subst logs st'.
  rewrite (settle_review_on_resolved k d) by done.
  unfold primary_action_finally, primary_action_then.
  rewrite update_reviewers_eq. simpl.
  repeat split. by rewrite <- !app_assoc.
Qed.

Lemma settle_review_resolved_witness :
  let st := primary_action 0 two_points_for_alice task_dialog_open in
  let logs := energy_point_logs (docinfo st) in
  let st' := settle_review 0 (Resolved review_of_alice) st in
  energy_point_logs (docinfo st') = review_of_alice :: logs
  ∧ length (energy_point_logs (docinfo st')) = S (length logs)
  ∧ trace st'
    = trace st
        ++ [EvDialogHide 0; EvDialogClear 0;
            EvTimelineRefresh (review_of_alice :: logs);
            EvReviewsEmpty]
        ++ (EvReviewsAppend <$> pills_of (review_of_alice :: logs))
        ++ [EvXCall get_energy_points_method (ArgsUser (session_user st));
            EvEnablePrimary 0]
  ∧ reviews st' = pills_of (review_of_alice :: logs)
  ∧ pending st' = delete 0 (pending st) ++ [PendingPoints].
Proof.
  apply (settle_review_resolved 0 0 review_of_alice
           (primary_action 0 two_points_for_alice task_dialog_open)).
  vm_compute. reflexivity.
Defined.

(** C6: once the review call of an existing dialog [d] settles, resolved or
    rejected, the [finally] handler has run: the primary button of [d] is
    enabled, and enabling it is the last thing that happened. *)
Theorem settle_review_enables_primary
    (k d : nat) (o : Outcome Log) (st : State) :
  pending st !! k = Some (PendingReview d) →
  d < length (dialogs st) →
  primary_disabled <$> dialogs (settle_review k o st) !! d = Some false
  ∧ last (trace (settle_review k o st)) = Some (EvEnablePrimary d).
Proof.
  intros Hk [dlg Hd]%lookup_lt_is_Some. destruct o as [review|].
  - rewrite (settle_review_on_resolved k d) by done.
    unfold primary_action_finally, primary_action_then.
    rewrite update_reviewers_eq. simpl.
    rewrite !list_lookup_alter_eq, Hd. split; [done|].
    apply last_snoc.
  - rewrite (settle_review_on_rejected k d) by done.
    unfold primary_action_finally. simpl.
    rewrite list_lookup_alter_eq, Hd. split; [done|]. apply last_snoc.
Qed.

Lemma settle_review_enables_primary_witness :
  let st := primary_action 0 two_points_for_alice task_dialog_open in
  primary_disabled <$> dialogs st !! 0 = Some true
  ∧ primary_disabled <$> dialogs (settle_review 0 Rejected st) !! 0
    = Some false
  ∧ last (trace (settle_review 0 Rejected st)) = Some (EvEnablePrimary 0).
Proof.
  split; [vm_compute; reflexivity|].
  apply (settle_review_enables_primary 0 0 Rejected
           (primary_action 0 two_points_for_alice task_dialog_open)).
  - vm_compute. reflexivity.
  - vm_compute. lia.
Defined.

(** *** Pending review calls in the states the component can reach *)

Lemma pending_dialogs_exist_mono st st' :
  pending st' = pending st →
  length (dialogs st) ≤ length (dialogs st') →
  pending_dialogs_exist st → pending_dialogs_exist st'.
Proof.
  unfold pending_dialogs_exist. intros -> Hle Hst.
  eapply Forall_impl; [exact Hst|]. intros [d|]; simpl; [lia|done].
Qed.

Lemma foldl_run_handler_pending hs st :
  pending_dialogs_exist st →
  pending_dialogs_exist (foldl (λ st h, run_handler h st) st hs).
Proof.
  revert st. induction hs as [|h hs IH]; intros st Hst; [done|].
  simpl. apply IH. destruct h; [done|].
  apply (pending_dialogs_exist_mono st); [done| |done].
  simpl. rewrite length_alter, length_app. lia.
Qed.

Lemma step_pending_dialogs_exist st i :
  pending_dialogs_exist st → pending_dialogs_exist (step st i).
Proof.
  intros Hst. destruct i as [|d values|k o|k o| |]; simpl.
  - by apply foldl_run_handler_pending.
  - case_decide as Hd; [|done]. unfold primary_action. simpl.
    destruct (exceeds _ _); unfold pending_dialogs_exist in *; simpl;
      rewrite length_alter; [done|].
    apply Forall_app. split; [done|]. by repeat constructor.
  - unfold settle_review. destruct (pending st !! k) as [[d|]|]; [|done..].
    unfold pending_dialogs_exist in *.
    destruct o; simpl; [rewrite update_reviewers_eq; simpl|];
      rewrite !length_alter.
    + apply Forall_app. split; [by apply Forall_delete|]. by repeat constructor.
    + by apply Forall_delete.
  - unfold settle_points. destruct (pending st !! k) as [[d|]|]; [done| |done].
    unfold pending_dialogs_exist in *. destruct o; simpl; by apply Forall_delete.
  - unfold pending_dialogs_exist in *. simpl.
    apply Forall_app. split; [done|]. by repeat constructor.
  - rewrite update_reviewers_eq. done.
Qed.

Lemma run_pending_dialogs_exist st inputs :
  pending_dialogs_exist st → pending_dialogs_exist (run st inputs).
Proof.
  revert st. induction inputs as [|i inputs IH]; intros st Hst; [done|].
  simpl. apply IH. by apply step_pending_dialogs_exist.
Qed.

(** On a page and after any inputs, a pending review call settles into an
    enabled primary button. *)
Lemma settle_review_enables_reachable
    user pts fields dc di inputs k d o :
  let st := run (constructor (page user pts fields dc di)) inputs in
  pending st !! k = Some (PendingReview d) →
  primary_disabled <$> dialogs (settle_review k o st) !! d = Some false.
Proof.
  intros st Hk.
  assert (pending_dialogs_exist st) as Hp.
  { apply run_pending_dialogs_exist. unfold constructor.
    rewrite update_reviewers_eq. unfold pending_dialogs_exist, add_review_button.
    simpl. destruct (no_review_points pts); constructor. }
  clearbody st.
  unfold pending_dialogs_exist in Hp. rewrite Forall_forall in Hp.
  pose proof (Hp _ (list_elem_of_lookup_2 _ _ _ Hk)) as Hd. simpl in Hd.
  apply lookup_lt_is_Some in Hd as [dlg Hd].
  destruct o as [review|].
  - rewrite (settle_review_on_resolved k d) by done.
    unfold primary_action_finally, primary_action_then.
    rewrite update_reviewers_eq. simpl.
    by rewrite !list_lookup_alter_eq, Hd.
  - rewrite (settle_review_on_rejected k d) by done.
    unfold primary_action_finally. simpl.
    by rewrite list_lookup_alter_eq, Hd.
Qed.

(** ** The gate on the add-review button *)

Lemma foldl_run_handler_button hs st :
  review_button (foldl (λ st h, run_handler h st) st hs) = review_button st.
Proof.
  revert st. induction hs as [|h hs IH]; intros st; [done|].
  simpl. rewrite IH. by destruct h.
Qed.

(** Nothing that happens after construction rewires the button. *)
Lemma step_review_button st i : review_button (step st i) = review_button st.
Proof.
  destruct i as [|d values|k o|k o| |]; simpl.
  - apply foldl_run_handler_button.
  - case_decide; [|done]. unfold primary_action. simpl.
    by destruct (exceeds _ _).
  - unfold settle_review.
    destruct (pending st !! k) as [[d|]|]; [|done..].
    destruct o; simpl; [|done]. by rewrite update_reviewers_eq.
  - unfold settle_points.
    destruct (pending st !! k) as [[d|]|]; [done| |done]. by destruct o.
  - done.
  - by rewrite update_reviewers_eq.
Qed.

Lemma run_review_button st inputs :
  review_button (run st inputs) = review_button st.
Proof.
  revert st. induction inputs as [|i inputs IH]; intros st; [done|].
  simpl. unfold run in IH. by rewrite IH, step_review_button.
Qed.

Lemma gated_click st : review_button st = gated_button → click_review_button st = st.
Proof. unfold click_review_button. by intros ->. Qed.

Lemma gated_step st i : gated st → gated (step st i).
Proof.
  intros [Hb Hd Hp Ht]. destruct i as [|d values|k o|k o| |]; simpl.
  - rewrite gated_click by done. by split.
  - rewrite Hd. case_decide as Hlt; [simpl in Hlt; lia|]. by split.
  - unfold settle_review. destruct (pending st !! k) as [[d|]|] eqn:Hk;
      [|by split..].
    apply list_elem_of_lookup_2 in Hk.
    rewrite Forall_forall in Hp. by apply Hp in Hk.
  - unfold settle_points. destruct (pending st !! k) as [[d|]|] eqn:Hk;
      [by split| |by split].
    destruct o; split; simpl; try done; by apply Forall_delete.
  - split; simpl; try done.
    + apply Forall_app. split; [done|]. by repeat constructor.
    + intros args [?|[=]%list_elem_of_singleton]%elem_of_app. by apply (Ht args).
  - rewrite update_reviewers_eq. split; simpl; try done.
    intros args [?|Hin]%elem_of_app; [by apply (Ht args)|].
    apply elem_of_cons in Hin as [[=]|(p & [=] & _)%list_elem_of_fmap].
Qed.

Lemma gated_run st inputs : gated st → gated (run st inputs).
Proof.
  revert st. induction inputs as [|i inputs IH]; intros st Hg; [done|].
  simpl. apply IH. by apply gated_step.
Qed.

Lemma constructor_gated user pts fields d di :
  no_review_points pts = true →
  gated (constructor (page user pts fields d di)).
Proof.
  intros Hno. unfold constructor. rewrite update_reviewers_eq.
  unfold add_review_button. simpl. rewrite Hno.
  split; simpl; try done.
  intros args Hin.
  apply elem_of_cons in Hin as [[=]|(p & [=] & _)%list_elem_of_fmap].
Qed.

(** C10: when the cached review points are falsy (0 or absent) as the
    component is constructed on a freshly loaded page, the button gets the
    handler [false] and the 'not enough review points' hover popover; and
    whatever happens afterwards (clicks, balance refreshes that resolve with
    any balance, re-renderings), the wiring stays as it is, a click changes
    nothing, no dialog exists and no review call has been sent. *)
Theorem add_review_button_gate_is_final
    (user : string) (pts : Points) (fields : list DocField)
    (d : gmap string value) (di : Docinfo) :
  no_review_points pts = true →
  let st := constructor (page user pts fields d di) in
  review_button st = gated_button
  ∧ ∀ inputs,
      review_button (run st inputs) = gated_button
      ∧ click_review_button (run st inputs) = run st inputs
      ∧ dialogs (run st inputs) = []
      ∧ ∀ args, EvXCall review_method args ∉ trace (run st inputs).
Proof.
  intros Hno st. subst st.
  pose proof (constructor_gated user pts fields d di Hno) as Hg.
  split; [apply Hg|]. intros inputs.
  destruct (gated_run _ inputs Hg) as [Hb Hd _ Ht].
  repeat split; try done. by apply gated_click.
Qed.

Lemma add_review_button_gate_is_final_witness :
  let st := constructor task_without_points in
  review_button st = gated_button
  ∧ ∀ inputs,
      review_button (run st inputs) = gated_button
      ∧ click_review_button (run st inputs) = run st inputs
      ∧ dialogs (run st inputs) = []
      ∧ ∀ args, EvXCall review_method args ∉ trace (run st inputs).
Proof.
  apply (add_review_button_gate_is_final "carol@example.com"
           {| review_points := Some 0%Z |} [] task_doc
           (docinfo task_with_sent_mail)).
  reflexivity.
Defined.

(** ** Scenarios *)

(** The balance is refreshed to 10 points after construction; the button is
    still gated and a click opens nothing. *)
Example gate_survives_refresh :
  let st :=
    run (constructor task_without_points)
      [InUpdatePoints;
       InSettlePoints 0 (Resolved {| review_points := Some 10%Z |});
       InClick] in
  this_points st = {| review_points := Some 10%Z |}
  ∧ boot_points st = {| review_points := Some 10%Z |}
  ∧ review_button st = gated_button
  ∧ dialogs st = [].
Proof. vm_compute. done. Qed.

(** No user-reference field, empty feeds, a non-empty owner: the owner. *)
Example involved_users_owner_only :
  get_involved_users
    (page "carol@example.com" {| review_points := Some 5%Z |}
       [{| fieldtype := "Data"; options := VUndefined; fieldname := "subject" |}]
       task_doc
       {| communications := []; comments := []; versions := [];
          assignments := []; energy_point_logs := [] |})
  = [VStr "alice@example.com"].
Proof. vm_compute. reflexivity. Qed.

(** Link fields to User are read, duplicates, the session user,
    'Administrator' and empty values are dropped, first occurrences stay in
    order. *)
Example involved_users_mixed :
  get_involved_users
    (page "carol@example.com" {| review_points := Some 5%Z |}
       [{| fieldtype := "Link"; options := VStr "User"; fieldname := "assigned_to" |};
        {| fieldtype := "Link"; options := VStr "Project"; fieldname := "project" |};
        {| fieldtype := "Link"; options := VStr "User"; fieldname := "approver" |}]
       (<["assigned_to" := VStr "dave@example.com"]>
          (<["project" := VStr "PROJ-1"]> task_doc))
       {| communications :=
            [{| sender := VStr "bob@example.com"; delivery_status := VStr "error" |};
             {| sender := VStr ""; delivery_status := VStr "sent" |}];
          comments := [{| owner := VStr "carol@example.com" |};
                       {| owner := VStr "dave@example.com" |}];
          versions := [{| owner := VStr "Administrator" |};
                       {| owner := VStr "erin@example.com" |}];
          assignments := [{| owner := VStr "alice@example.com" |}];
          energy_point_logs := [] |})
  = [VStr "dave@example.com"; VStr "alice@example.com"; VStr "erin@example.com"].
Proof. vm_compute. reflexivity. Qed.

(** Points 3, -2 and 0 render as appreciation, criticism and appreciation;
    a log that is not a review is not rendered. *)
Example pills_of_three_reviews :
  (λ p, (pill_class p, pill_text p))
    <$> pills_of
          [{| log_type := "Appreciation"; log_points := 3; log_user := "a";
              log_owner := "b"; log_creation := "t"; log_reason := "r" |};
           {| log_type := "Auto"; log_points := 7; log_user := "a";
              log_owner := "b"; log_creation := "t"; log_reason := "r" |};
           {| log_type := "Criticism"; log_points := -2; log_user := "a";
              log_owner := "b"; log_creation := "t"; log_reason := "r" |};
           {| log_type := "Appreciation"; log_points := 0; log_user := "a";
              log_owner := "b"; log_creation := "t"; log_reason := "r" |}]
  = [(["review"; "appreciation"], 3%Z);
     (["review"; "criticism"], 2%Z);
     (["review"; "appreciation"], 0%Z)].
Proof. vm_compute. reflexivity. Qed.

(** Singular and plural subjects of the popover. *)
Example popover_subjects :
  (λ data, subject <$> pill_popover (setup_detail_popover (review_pill data) data))
    <$> [{| log_type := "Appreciation"; log_points := 1; log_user := "a";
            log_owner := "b"; log_creation := "t"; log_reason := "r" |};
         {| log_type := "Appreciation"; log_points := 2; log_user := "a";
            log_owner := "b"; log_creation := "t"; log_reason := "r" |};
         {| log_type := "Criticism"; log_points := -1; log_user := "a";
            log_owner := "b"; log_creation := "t"; log_reason := "r" |}]
  = [Some "{0} appreciation point for {1}";
     Some "{0} appreciation points for {1}";
     Some "{0} criticism point for {1}"].
Proof. vm_compute. reflexivity. Qed.

(** A whole submission: click, submit 2 points, the ledger answers with the
    log, then with the new balance. *)
Example successful_submission :
  let st :=
    run (constructor task_with_sent_mail)
      [InClick;
       InSubmit 0 two_points_for_alice;
       InSettleReview 0 (Resolved review_of_alice);
       InSettlePoints 0 (Resolved {| review_points := Some 3%Z |})] in
  energy_point_logs (docinfo st) = [review_of_alice]
  ∧ (λ p, (pill_class p, pill_text p)) <$> reviews st
    = [(["review"; "appreciation"], 2%Z)]
  ∧ this_points st = {| review_points := Some 3%Z |}
  ∧ pending st = []
  ∧ (λ dlg, (shown dlg, primary_disabled dlg)) <$> dialogs st = [(false, false)].
Proof. vm_compute. done. Qed.

(** * More of the component *)

(** ** More on the involvement resolver *)

Lemma uniqBy_from_sublist {A K} `{EqDecision K} (key : A → K) seen l :
  uniqBy_from key seen l `sublist_of` l.
Proof.
  revert seen. induction l as [|x l IH]; intros seen; simpl; [done|].
  destruct (decide (key x ∈ seen)).
  - by apply sublist_cons.
  - by apply sublist_skip.
Qed.

(** X1: [get_involved_users] returns its values in the order in which they
    are collected (user fields, owner, communications, comments, versions,
    assignments): the result is a sublist of the collected array. *)
Theorem get_involved_users_keeps_order (st : State) :
  get_involved_users st `sublist_of` involved_candidates st.
Proof.
  rewrite get_involved_users_unfold.
  etrans; [apply sublist_filter|]. etrans; [apply sublist_filter|].
  apply uniqBy_from_sublist.
Qed.

(** X2: a value is returned by [get_involved_users] exactly when it is
    truthy, is neither 'Administrator' nor the session user, and is the
    value of the owner field, the value of a Link field to User, the owner of
    a comment, version or assignment, or the boolean [true] that a
    communication with a truthy sender and delivery status 'sent'
    produces. *)
Theorem get_involved_users_membership (st : State) (u : value) :
  u ∈ get_involved_users st ↔
    truthy u = true
    ∧ u ≠ VStr "Administrator"
    ∧ u ≠ VStr (session_user st)
    ∧ (u = doc_get st "owner"
       ∨ (∃ f, f ∈ meta_fields st ∧ fieldtype f = "Link"
               ∧ options f = VStr "User" ∧ u = doc_get st (fieldname f))
       ∨ (∃ e, e ∈ comments (docinfo st) ++ versions (docinfo st)
                     ++ assignments (docinfo st)
               ∧ u = owner e)
       ∨ (u = VBool true
          ∧ ∃ c, c ∈ communications (docinfo st)
                 ∧ truthy (sender c) = true
                 ∧ delivery_status c = VStr "sent")).
Proof.
  rewrite elem_of_get_involved_users. unfold involved_candidates.
  split.
  - intros (Ht & Ha & Hs & Hin). repeat split; try done.
    rewrite fmap_app, <- list_fmap_compose in Hin.
    rewrite !elem_of_app, !list_elem_of_fmap in Hin.
    destruct Hin as [[(f & -> & Hf)|(x & -> & ->%list_elem_of_singleton)]
                    |[(c & -> & Hc)|[(e & -> & He)|[(e & -> & He)|(e & -> & He)]]]].
    + apply list_elem_of_filter in Hf as [Hl Hf]. right; left. exists f.
      unfold is_user_link, strict_eq in Hl.
      apply andb_prop_elim in Hl as [Hl1%bool_decide_unpack Hl2%bool_decide_unpack].
      done.
    + by left.
    + unfold js_and in *. destruct (truthy (sender c)) eqn:Hsc.
      * simpl in Ht. rewrite Ht. do 3 right. split; [done|].
        exists c. by apply bool_decide_eq_true in Ht.
      * congruence.
    + right; right; left. exists e. rewrite !elem_of_app. auto.
    + right; right; left. exists e. rewrite !elem_of_app. auto.
    + right; right; left. exists e. rewrite !elem_of_app. auto.
  - intros (Ht & Ha & Hs & Hin). repeat split; try done.
    rewrite fmap_app, <- list_fmap_compose.
    rewrite !elem_of_app, !list_elem_of_fmap.
    destruct Hin as [->|[(f & Hf & Hl & Ho & ->)|[(e & He & ->)|(-> & c & Hc & Hsc & Hsent)]]].
    + left; right. exists "owner". split; [done|]. by apply list_elem_of_singleton.
    + left; left. exists f. split; [done|]. apply list_elem_of_filter.
      split; [|done]. unfold is_user_link, strict_eq.
      apply andb_True. split; by apply bool_decide_pack.
    + rewrite !elem_of_app in He. destruct He as [He|[He|He]]; eauto 10.
    + right; left. exists c. split; [|done].
      unfold js_and, strict_eq. rewrite Hsc, Hsent. done.
Qed.

(** X3: on a form without Link fields to User whose docinfo feeds are all
    empty, [get_involved_users] returns the owner alone when the owner is
    eligible, and nothing otherwise. *)
Theorem get_involved_users_owner_or_nothing (st : State) :
  Forall (λ f, is_user_link f = false) (meta_fields st) →
  communications (docinfo st) = [] →
  comments (docinfo st) = [] →
  versions (docinfo st) = [] →
  assignments (docinfo st) = [] →
  get_involved_users st
  = if truthy (doc_get st "owner")
       && negb (includes [VStr "Administrator"; VStr (session_user st)]
                  (doc_get st "owner"))
    then [doc_get st "owner"] else [].
Proof.
  intros Hf Hc Hm Hv Ha. rewrite get_involved_users_unfold.
  unfold involved_candidates. rewrite Hc, Hm, Hv, Ha.
  assert (filter (λ d, is_user_link d) (meta_fields st) = []) as ->.
  { induction Hf as [|f fs Hx _ IH]; [done|].
    rewrite filter_cons_False; [done|]. simpl. rewrite Hx. by intros []. }
  simpl. unfold uniqBy. simpl.
  rewrite (filter_cons (λ user, Is_true (negb (includes _ user)))), filter_nil.
  destruct (includes _ _); simpl.
  - by rewrite andb_false_r.
  - rewrite andb_true_r, filter_cons, filter_nil.
    destruct (truthy _); by case_decide.
Qed.

Lemma get_involved_users_owner_or_nothing_witness :
  get_involved_users task_without_feeds
  = if truthy (doc_get task_without_feeds "owner")
       && negb (includes
                  [VStr "Administrator"; VStr (session_user task_without_feeds)]
                  (doc_get task_without_feeds "owner"))
    then [doc_get task_without_feeds "owner"] else [].
Proof.
  apply (get_involved_users_owner_or_nothing task_without_feeds);
    [|reflexivity..].
  repeat constructor.
Defined.

(** ** The popover of a pill *)


(** X5: for a log whose sign agrees with its type (positive points for an
    'Appreciation', negative points otherwise), [setup_detail_popover] picks
    a singular subject exactly when the magnitude it displays is 1. *)
Theorem setup_detail_popover_singular (el : Pill) (data : Log) :
  sign_consistent data →
  ∃ pop, pill_popover (setup_detail_popover el data) = Some pop
         ∧ (subject pop ∈ singular_subjects
            ↔ (message_parts pop).1.1 = 1%Z).
Proof.
  unfold sign_consistent, setup_detail_popover, singular_subjects, __.
  intros Hs. eexists. split; [done|]. simpl.
  rewrite !elem_of_cons, elem_of_nil.
  destruct (bool_decide (log_type data = "Appreciation"));
    [destruct (Z.eqb_spec (log_points data) 1)
    |destruct (Z.eqb_spec (log_points data) (-1))];
    (split; [intros [?|[?|[]]]; first [lia | discriminate] | intros ?; first [by left | by right; left | lia]]).
Qed.

Lemma setup_detail_popover_singular_witness :
  ∃ pop, pill_popover (setup_detail_popover (review_pill review_of_alice)
                         review_of_alice) = Some pop
         ∧ (subject pop ∈ singular_subjects
            ↔ (message_parts pop).1.1 = 1%Z).
Proof.
  apply (setup_detail_popover_singular (review_pill review_of_alice)
           review_of_alice).
  vm_compute. reflexivity.
Defined.

(** ** Invariants of the event loop *)

Lemma run_invariant (P : State → Prop) :
  (∀ st i, P st → P (step st i)) →
  ∀ st inputs, P st → P (run st inputs).
Proof.
  intros Hstep st inputs. revert st.
  induction inputs as [|i inputs IH]; intros st Hst; [done|].
  simpl. apply IH. by apply Hstep.
Qed.

Lemma click_invariant (P : State → Prop) :
  (∀ st, P st → P (show_review_dialog st)) →
  ∀ st, P st → P (click_review_button st).
Proof.
  intros Hshow st. unfold click_review_button.
  generalize (click_handlers (review_button st)). intros hs. revert st.
  induction hs as [|h hs IH]; intros st Hst; [done|].
  simpl. apply IH. destruct h; [done|]. by apply Hshow.
Qed.

(** A step that is not the resolution of a balance call keeps both cached
    balances. *)
Lemma step_keeps_points st i :
  (∀ k data, i ≠ InSettlePoints k (Resolved data)) →
  this_points (step st i) = this_points st
  ∧ boot_points (step st i) = boot_points st.
Proof.
  intros Hi. destruct i as [|d values|k o|k o| |]; simpl.
  - apply (click_invariant
             (λ st', this_points st' = this_points st
                     ∧ boot_points st' = boot_points st)); done.
  - case_decide; [|done]. unfold primary_action. simpl.
    by destruct (exceeds _ _).
  - unfold settle_review. destruct (pending st !! k) as [[d|]|]; [|done..].
    destruct o; simpl; [|done]. by rewrite update_reviewers_eq.
  - unfold settle_points. destruct (pending st !! k) as [[d|]|]; [done| |done].
    destruct o as [data|]; [|done]. by destruct (Hi k data).
  - done.
  - by rewrite update_reviewers_eq.
Qed.


(** X7: only the resolution of a [get_energy_points] call changes the cached
    balances. Clicks, submissions, settled review calls (a successful review
    does not deduct its points locally), rejected balance calls and
    re-renderings leave both as they are. *)
Theorem points_change_only_on_refresh (st : State) (inputs : list Input) :
  Forall (λ i, ∀ k data, i ≠ InSettlePoints k (Resolved data)) inputs →
  this_points (run st inputs) = this_points st
  ∧ boot_points (run st inputs) = boot_points st.
Proof.
  revert st. induction inputs as [|i inputs IH]; intros st Hin; [done|].
  apply Forall_cons in Hin as [Hi Hin].
  change (run st (i :: inputs)) with (run (step st i) inputs).
  destruct (IH (step st i) Hin) as [-> ->]. by apply step_keeps_points.
Qed.

Lemma points_change_only_on_refresh_witness :
  let inputs :=
    [InClick; InSubmit 0 two_points_for_alice;
     InSettleReview 0 (Resolved review_of_alice);
     InSettlePoints 0 Rejected] in
  this_points (run (constructor task_with_sent_mail) inputs)
  = this_points (constructor task_with_sent_mail)
  ∧ boot_points (run (constructor task_with_sent_mail) inputs)
    = boot_points (constructor task_with_sent_mail).
Proof.
  apply (points_change_only_on_refresh (constructor task_with_sent_mail)).
  repeat constructor; intros k data; discriminate.
Defined.

(** ** Both ways a review call can settle *)

(** X8: when the review call of dialog [d] is rejected, only the [finally]
    handler runs: the primary button is enabled and nothing else is called;
    the document's logs, the pills, both balances and the visibility of
    the dialog stay as they were, and no balance call is issued. *)
Theorem settle_review_rejected_keeps_state (k d : nat) (st : State) :
  pending st !! k = Some (PendingReview d) →
  let st' := settle_review k Rejected st in
  trace st' = trace st ++ [EvEnablePrimary d]
  ∧ pending st' = delete k (pending st)
  ∧ docinfo st' = docinfo st
  ∧ reviews st' = reviews st
  ∧ this_points st' = this_points st
  ∧ boot_points st' = boot_points st
  ∧ shown <$> dialogs st' !! d = shown <$> dialogs st !! d
  ∧ length (dialogs st') = length (dialogs st).
Proof.
  intros Hk st'. subst st'. rewrite (settle_review_on_rejected k d) by done.
  unfold primary_action_finally. simpl. repeat split.
  - rewrite list_lookup_alter_eq. by destruct (dialogs st !! d).
  - apply length_alter.
Qed.

Lemma settle_review_rejected_keeps_state_witness :
  let st := primary_action 0 two_points_for_alice task_dialog_open in
  let st' := settle_review 0 Rejected st in
  trace st' = trace st ++ [EvEnablePrimary 0]
  ∧ pending st' = delete 0 (pending st)
  ∧ docinfo st' = docinfo st
  ∧ reviews st' = reviews st
  ∧ this_points st' = this_points st
  ∧ boot_points st' = boot_points st
  ∧ shown <$> dialogs st' !! 0 = shown <$> dialogs st !! 0
  ∧ length (dialogs st') = length (dialogs st).
Proof.
  apply (settle_review_rejected_keeps_state 0 0
           (primary_action 0 two_points_for_alice task_dialog_open)).
  vm_compute. reflexivity.
Defined.

(** X9: when the review call of an existing dialog [d] resolves, the dialog
    is closed with its primary button enabled, and the pill of the returned
    log is displayed first, before the pills of the earlier history; a
    returned log whose type is neither 'Appreciation' nor 'Criticism' joins
    the history without a pill. *)
Theorem resolved_review_display
    (k d : nat) (review : Log) (st : State) :
  pending st !! k = Some (PendingReview d) →
  d < length (dialogs st) →
  let st' := settle_review k (Resolved review) st in
  reviews st'
  = (if is_review_log review
     then [setup_detail_popover (review_pill review) review] else [])
    ++ pills_of (energy_point_logs (docinfo st))
  ∧ shown <$> dialogs st' !! d = Some false
  ∧ primary_disabled <$> dialogs st' !! d = Some false.
Proof.
  intros Hk [dlg Hd]%lookup_lt_is_Some st'. subst st'.
  rewrite (settle_review_on_resolved k d) by done.
  unfold primary_action_finally, primary_action_then.
  rewrite update_reviewers_eq. simpl.
  rewrite !list_lookup_alter_eq, Hd. split; [|done].
  unfold pills_of. rewrite filter_cons.
  destruct (is_review_log review); by case_decide.
Qed.

Lemma resolved_review_display_witness :
  let st := primary_action 0 two_points_for_alice task_dialog_open in
  let st' := settle_review 0 (Resolved review_of_alice) st in
  reviews st'
  = (if is_review_log review_of_alice
     then [setup_detail_popover (review_pill review_of_alice) review_of_alice]
     else [])
    ++ pills_of (energy_point_logs (docinfo st))
  ∧ shown <$> dialogs st' !! 0 = Some false
  ∧ primary_disabled <$> dialogs st' !! 0 = Some false.
Proof.
  apply (resolved_review_display 0 0 review_of_alice
           (primary_action 0 two_points_for_alice task_dialog_open)).
  - vm_compute. reflexivity.
  - vm_compute. lia.
Defined.

(** ** What the component leaves alone *)

(** The part of the state [get_involved_users] reads. *)
Lemma get_involved_users_reads st st' :
  session_user st' = session_user st →
  meta_fields st' = meta_fields st →
  doc st' = doc st →
  communications (docinfo st') = communications (docinfo st) →
  comments (docinfo st') = comments (docinfo st) →
  versions (docinfo st') = versions (docinfo st) →
  assignments (docinfo st') = assignments (docinfo st) →
  get_involved_users st' = get_involved_users st.
Proof.
  intros Hu Hf Hd Hc Hm Hv Ha. unfold get_involved_users, doc_get.
  by rewrite Hu, Hf, Hd, Hc, Hm, Hv, Ha.
Qed.

Lemma step_keeps_form st i :
  session_user (step st i) = session_user st
  ∧ meta_fields (step st i) = meta_fields st
  ∧ doc (step st i) = doc st
  ∧ communications (docinfo (step st i)) = communications (docinfo st)
  ∧ comments (docinfo (step st i)) = comments (docinfo st)
  ∧ versions (docinfo (step st i)) = versions (docinfo st)
  ∧ assignments (docinfo (step st i)) = assignments (docinfo st).
Proof.
  destruct i as [|d values|k o|k o| |]; simpl.
  - apply (click_invariant
             (λ st', session_user st' = session_user st
                     ∧ meta_fields st' = meta_fields st
                     ∧ doc st' = doc st
                     ∧ communications (docinfo st') = communications (docinfo st)
                     ∧ comments (docinfo st') = comments (docinfo st)
                     ∧ versions (docinfo st') = versions (docinfo st)
                     ∧ assignments (docinfo st') = assignments (docinfo st)));
      done.
  - case_decide; [|done]. unfold primary_action. simpl.
    by destruct (exceeds _ _).
  - unfold settle_review. destruct (pending st !! k) as [[d|]|]; [|done..].
    destruct o; simpl; [|done]. by rewrite update_reviewers_eq.
  - unfold settle_points. destruct (pending st !! k) as [[d|]|]; [done| |done].
    by destruct o.
  - done.
  - by rewrite update_reviewers_eq.
Qed.

(** X10: nothing the component does changes who is offered as a recipient:
    after any inputs, submitted and recorded reviews included,
    [get_involved_users] returns what it returned before. *)
Theorem get_involved_users_stable (st : State) (inputs : list Input) :
  get_involved_users (run st inputs) = get_involved_users st.
Proof.
  apply (run_invariant (λ st', get_involved_users st' = get_involved_users st));
    [|done].
  intros st' i <-.
  destruct (step_keeps_form st' i) as (? & ? & ? & ? & ? & ? & ?).
  by apply get_involved_users_reads.
Qed.

Lemma step_grows_logs st i :
  energy_point_logs (docinfo st)
    `suffix_of` energy_point_logs (docinfo (step st i)).
Proof.
  destruct i as [|d values|k o|k o| |]; simpl.
  - apply (click_invariant
             (λ st', energy_point_logs (docinfo st)
                       `suffix_of` energy_point_logs (docinfo st'))); done.
  - case_decide; [|done]. unfold primary_action. simpl.
    by destruct (exceeds _ _).
  - unfold settle_review. destruct (pending st !! k) as [[d|]|]; [|done..].
    destruct o; simpl; [|done]. rewrite update_reviewers_eq. simpl.
    by apply suffix_cons_r.
  - unfold settle_points. destruct (pending st !! k) as [[d|]|]; [done| |done].
    by destruct o.
  - done.
  - by rewrite update_reviewers_eq.
Qed.

(** X11: the document's energy point logs only grow at the front: whatever
    happens, the logs that were there remain, unchanged and in order, as the
    tail of the list. *)
Theorem energy_point_logs_grow (st : State) (inputs : list Input) :
  energy_point_logs (docinfo st)
    `suffix_of` energy_point_logs (docinfo (run st inputs)).
Proof.
  apply (run_invariant
           (λ st', energy_point_logs (docinfo st)
                     `suffix_of` energy_point_logs (docinfo st'))); [|done].
  intros st' i Hst. etrans; [exact Hst|]. apply step_grows_logs.
Qed.

(** ** A button wired with review points *)

Lemma show_review_dialog_dialogs st :
  dialogs (show_review_dialog st) = dialogs st ++ [new_dialog st].
Proof.
  unfold show_review_dialog. simpl.
  rewrite alter_app_r_alt by done. by rewrite Nat.sub_diag.
Qed.

Lemma constructor_open user pts fields d di :
  no_review_points pts = false →
  review_button (constructor (page user pts fields d di)) = open_button.
Proof.
  intros Hno. unfold constructor. rewrite update_reviewers_eq.
  unfold add_review_button. simpl. by rewrite Hno.
Qed.

(** X12: when there are review points as the component is constructed on a
    freshly loaded page, the button gets the handler that opens the review
    dialog and keeps it whatever happens afterwards, a later balance of 0
    included: every click creates exactly one more dialog, shown, with its
    primary button enabled, offering the involved users of that moment. *)
Theorem add_review_button_open_is_final
    (user : string) (pts : Points) (fields : list DocField)
    (d : gmap string value) (di : Docinfo) (inputs : list Input) :
  no_review_points pts = false →
  let st := run (constructor (page user pts fields d di)) inputs in
  review_button st = open_button
  ∧ dialogs (click_review_button st) = dialogs st ++ [new_dialog st]
  ∧ pending (click_review_button st) = pending st
  ∧ trace (click_review_button st)
    = trace st ++ [EvDialogShow (length (dialogs st))].
Proof.
  intros Hno st.
  assert (review_button st = open_button) as Hb.
  { subst st. rewrite run_review_button. by apply constructor_open. }
  clearbody st. split; [done|].
  unfold click_review_button. rewrite Hb. simpl.
  split; [apply show_review_dialog_dialogs|done].
Qed.

Lemma add_review_button_open_is_final_witness :
  let st :=
    run (constructor task_with_sent_mail)
      [InUpdatePoints;
       InSettlePoints 0 (Resolved {| review_points := Some 0%Z |})] in
  review_button st = open_button
  ∧ dialogs (click_review_button st) = dialogs st ++ [new_dialog st]
  ∧ pending (click_review_button st) = pending st
  ∧ trace (click_review_button st)
    = trace st ++ [EvDialogShow (length (dialogs st))].
Proof.
  apply (add_review_button_open_is_final "carol@example.com"
           {| review_points := Some 5%Z |} [] task_doc
           (docinfo task_with_sent_mail)).
  reflexivity.
Defined.

(** ** Construction and refresh *)

Lemma filter_none {A} (P : A → Prop) `{!∀ x, Decision (P x)} (l : list A) :
  Forall (λ x, ¬ P x) l → filter P l = [].
Proof.
  induction 1 as [|x l Hx _ IH]; [done|]. by rewrite filter_cons_False.
Qed.

Lemma appends_are_no_xcall (ps : list Pill) :
  filter (λ e, is_xcall e) (EvReviewsAppend <$> ps) = [].
Proof. apply filter_none, Forall_fmap, Forall_forall. by intros ? _ []. Qed.

(** X13: constructing the component contacts no remote service and opens no
    dialog: the balance is taken from [frappe.boot], the pills of the history
    that is already there are rendered in place of whatever the list held,
    and the history itself is untouched. *)
Theorem constructor_is_local (st : State) :
  this_points (constructor st) = boot_points st
  ∧ boot_points (constructor st) = boot_points st
  ∧ reviews (constructor st) = pills_of (energy_point_logs (docinfo st))
  ∧ docinfo (constructor st) = docinfo st
  ∧ pending (constructor st) = pending st
  ∧ dialogs (constructor st) = dialogs st
  ∧ filter (λ e, is_xcall e) (trace (constructor st))
    = filter (λ e, is_xcall e) (trace st).
Proof.
  unfold constructor. rewrite update_reviewers_eq. unfold add_review_button.
  simpl. destruct (no_review_points _); simpl; repeat split;
    rewrite filter_app, filter_cons_False, appends_are_no_xcall by (by intros []);
    apply app_nil_r.
Qed.

(** X14: the budget check follows the refreshed balance while the dialogs do
    not: once a balance call resolves with [data], a dialog that is already
    open still shows the balance it was created with, and its submission is
    sent to the ledger exactly when the points do not exceed [data]. *)
Theorem refreshed_balance_is_checked
    (k d : nat) (data : Points) (values : Values) (st : State) :
  pending st !! k = Some PendingPoints →
  let st' := settle_points k (Resolved data) st in
  dialogs st' = dialogs st
  ∧ this_points st' = data
  ∧ boot_points st' = data
  ∧ pending (primary_action d values st')
    = pending st'
        ++ (if exceeds (v_points values) data then [] else [PendingReview d]).
Proof.
  intros Hk st'. subst st'. unfold settle_points. rewrite Hk.
  repeat split. unfold primary_action. simpl.
  destruct (exceeds _ _); simpl; [by rewrite app_nil_r|done].
Qed.

Lemma refreshed_balance_is_checked_witness :
  let st := update_points task_dialog_open in
  let st' := settle_points 0 (Resolved {| review_points := Some 1%Z |}) st in
  dialogs st' = dialogs st
  ∧ this_points st' = {| review_points := Some 1%Z |}
  ∧ boot_points st' = {| review_points := Some 1%Z |}
  ∧ pending (primary_action 0 two_points_for_alice st')
    = pending st'
        ++ (if exceeds (v_points two_points_for_alice)
                 {| review_points := Some 1%Z |}
            then [] else [PendingReview 0]).
Proof.
  apply (refreshed_balance_is_checked 0 0 {| review_points := Some 1%Z |}
           two_points_for_alice (update_points task_dialog_open)).
  vm_compute. reflexivity.
Defined.

(** ** Accounting of review calls *)

Section counting.
Context {A : Type} (f : A → bool).

Lemma length_filter_snoc (l : list A) (x : A) :
  length (filter (λ y, f y) (l ++ [x]))
  = length (filter (λ y, f y) l) + (if f x then 1 else 0).
Proof.
  rewrite filter_app, length_app, filter_cons, filter_nil.
  destruct (f x); by case_decide.
Qed.

Lemma length_filter_delete (l : list A) (k : nat) (x : A) :
  l !! k = Some x →
  length (filter (λ y, f y) (delete k l)) + (if f x then 1 else 0)
  = length (filter (λ y, f y) l).
Proof.
  intros Hk. rewrite delete_take_drop.
  rewrite <- (take_drop_middle l k x Hk) at 3.
  rewrite !filter_app, !length_app, filter_cons.
  destruct (f x); case_decide as H; simpl in *;
    first [lia | by destruct H].

Qed.
End counting.

Lemma length_filter_render (f : Event → bool) (t : list Event) (ps : list Pill) :
  f EvReviewsEmpty = false →
  (∀ p, f (EvReviewsAppend p) = false) →
  length (filter (λ e, f e) (t ++ EvReviewsEmpty :: (EvReviewsAppend <$> ps)))
  = length (filter (λ e, f e) t).
Proof.
  intros He Ha. rewrite filter_app, length_app, filter_cons_False.
  - rewrite (filter_none _ (EvReviewsAppend <$> ps)); [simpl; lia|].
    apply Forall_fmap, Forall_forall. intros p _. simpl. rewrite Ha. by intros [].
  - rewrite He. by intros [].
Qed.

Lemma review_call_sent args : is_review_call (EvXCall review_method args) = true.
Proof. reflexivity. Qed.

Lemma points_call_sent args :
  is_review_call (EvXCall get_energy_points_method args) = false.
Proof. reflexivity. Qed.

(** One step of the event loop, counted: logs added and review calls in
    flight against review calls sent, and likewise for the calls of
    [enable_primary_action]. *)
Lemma step_accounting st i :
  length (energy_point_logs (docinfo (step st i)))
    + pending_reviews (pending (step st i)) + review_calls (trace st)
  ≤ length (energy_point_logs (docinfo st))
    + pending_reviews (pending st) + review_calls (trace (step st i))
  ∧ enable_calls (trace (step st i))
      + pending_reviews (pending (step st i)) + review_calls (trace st)
    = enable_calls (trace st)
      + pending_reviews (pending st) + review_calls (trace (step st i)).
Proof.
  unfold pending_reviews, review_calls, enable_calls.
  destruct i as [|d values|k o|k o| |]; simpl.
  - apply (click_invariant
       (λ st',
          length (energy_point_logs (docinfo st'))
            + length (filter (λ p, is_pending_review p) (pending st'))
            + length (filter (λ e, is_review_call e) (trace st))
          ≤ length (energy_point_logs (docinfo st))
            + length (filter (λ p, is_pending_review p) (pending st))
            + length (filter (λ e, is_review_call e) (trace st'))
          ∧ length (filter (λ e, is_enable e) (trace st'))
              + length (filter (λ p, is_pending_review p) (pending st'))
              + length (filter (λ e, is_review_call e) (trace st))
            = length (filter (λ e, is_enable e) (trace st))
              + length (filter (λ p, is_pending_review p) (pending st))
              + length (filter (λ e, is_review_call e) (trace st')))); [|lia].
    intros st' Hst'. unfold show_review_dialog. simpl.
    rewrite !length_filter_snoc. simpl. lia.
  - case_decide; [|lia]. unfold primary_action. simpl.
    destruct (exceeds _ _); simpl; rewrite !length_filter_snoc;
      rewrite ?review_call_sent; simpl; lia.
  - unfold settle_review. destruct (pending st !! k) as [[d|]|] eqn:Hk; [|lia..].
    pose proof (length_filter_delete is_pending_review _ _ _ Hk) as Hdel.
    simpl in Hdel.
    destruct o; simpl; [rewrite update_reviewers_eq; simpl|];
      repeat (rewrite length_filter_snoc
              || rewrite length_filter_render by done);
      rewrite ?points_call_sent; simpl; lia.
  - unfold settle_points. destruct (pending st !! k) as [[d|]|] eqn:Hk; [lia| |lia].
    pose proof (length_filter_delete is_pending_review _ _ _ Hk) as Hdel.
    simpl in Hdel. destruct o; simpl; lia.
  - rewrite !length_filter_snoc, points_call_sent. simpl. lia.
  - rewrite update_reviewers_eq. simpl.
    rewrite !length_filter_render by done. lia.
Qed.

(** X15: the component never puts a log in the history that does not answer
    a review call it has sent: over any inputs, the logs added plus the
    review calls still in flight never outnumber the review calls sent plus
    those that were in flight at the start. *)
Theorem logs_answer_review_calls (st : State) (inputs : list Input) :
  length (energy_point_logs (docinfo (run st inputs)))
    + pending_reviews (pending (run st inputs)) + review_calls (trace st)
  ≤ length (energy_point_logs (docinfo st))
    + pending_reviews (pending st) + review_calls (trace (run st inputs)).
Proof.
  apply (run_invariant
    (λ st',
       length (energy_point_logs (docinfo st'))
         + pending_reviews (pending st') + review_calls (trace st)
       ≤ length (energy_point_logs (docinfo st))
         + pending_reviews (pending st) + review_calls (trace st'))); [|lia].
  intros st' i Hst'. destruct (step_accounting st' i) as [Hstep _]. lia.
Qed.

(** X16: [enable_primary_action] is called once for every review call that
    settles and at no other time: over any inputs, the calls of
    [enable_primary_action] made equal the review calls sent plus those in
    flight at the start, minus those still in flight. *)
Theorem enable_calls_match_settled_reviews (st : State) (inputs : list Input) :
  enable_calls (trace (run st inputs))
    + pending_reviews (pending (run st inputs)) + review_calls (trace st)
  = enable_calls (trace st)
    + pending_reviews (pending st) + review_calls (trace (run st inputs)).
Proof.
  apply (run_invariant
    (λ st',
       enable_calls (trace st')
         + pending_reviews (pending st') + review_calls (trace st)
       = enable_calls (trace st)
         + pending_reviews (pending st) + review_calls (trace st'))); [|lia].
  intros st' i Hst'. destruct (step_accounting st' i) as [_ Hstep]. lia.
Qed.

Lemma step_submissions st i :
  disable_calls (trace (step st i))
    + review_calls (trace st) + msgprints (trace st)
  = disable_calls (trace st)
    + review_calls (trace (step st i)) + msgprints (trace (step st i)).
Proof.
  unfold disable_calls, review_calls, msgprints.
  destruct i as [|d values|k o|k o| |]; simpl.
  - apply (click_invariant
       (λ st',
          length (filter (λ e, is_disable e) (trace st'))
            + length (filter (λ e, is_review_call e) (trace st))
            + length (filter (λ e, is_msgprint e) (trace st))
          = length (filter (λ e, is_disable e) (trace st))
            + length (filter (λ e, is_review_call e) (trace st'))
            + length (filter (λ e, is_msgprint e) (trace st')))); [|lia].
    intros st' Hst'. unfold show_review_dialog. simpl.
    rewrite !length_filter_snoc. simpl. lia.
  - case_decide; [|lia]. unfold primary_action. simpl.
    destruct (exceeds _ _); simpl; rewrite !length_filter_snoc;
      rewrite ?review_call_sent; simpl; lia.
  - unfold settle_review. destruct (pending st !! k) as [[d|]|]; [|lia..].
    destruct o; simpl; [rewrite update_reviewers_eq; simpl|];
      repeat (rewrite length_filter_snoc
              || rewrite length_filter_render by done);
      rewrite ?points_call_sent; simpl; lia.
  - unfold settle_points. destruct (pending st !! k) as [[d|]|]; [lia| |lia].
    destruct o; simpl; lia.
  - rewrite !length_filter_snoc, points_call_sent. simpl. lia.
  - rewrite update_reviewers_eq. simpl.
    rewrite !length_filter_render by done. lia.
Qed.

(** X17: every submission disables the primary button once and then either
    shows the message box or sends the review call, never both and never
    neither; nothing else disables the button, shows a message or sends a
    review call. Over any inputs, the calls of [disable_primary_action] made
    equal the review calls sent plus the messages shown. *)
Theorem submissions_message_or_call (st : State) (inputs : list Input) :
  disable_calls (trace (run st inputs))
    + review_calls (trace st) + msgprints (trace st)
  = disable_calls (trace st)
    + review_calls (trace (run st inputs)) + msgprints (trace (run st inputs)).
Proof.
  apply (run_invariant
    (λ st',
       disable_calls (trace st')
         + review_calls (trace st) + msgprints (trace st)
       = disable_calls (trace st)
         + review_calls (trace st') + msgprints (trace st'))); [|lia].
  intros st' i Hst'. pose proof (step_submissions st' i). lia.
Qed.
